(** * qosst-hal: fake hardware, hardware registry and optional-dependency guard

    A shallow embedding of the fake implementations of [qosst_hal]
    ([adc.py], [dac.py], [switch.py], the meters, ...) and of the helpers of
    [qosst_hal/utils.py] ([list_hardware], [list_hardware_str],
    [need_modules]), with the properties of the specification stated over
    them.

    Conventions of the embedding:
    - a Python call that may raise returns a [result]; an instance attribute
      that is only annotated in the class body (and so does not exist until
      it is first assigned) is an [option] field, and reading it while unset
      raises [AttributeError];
    - a [float] is an IEEE 754 binary64 value ([spec_float] at precision 53),
      an [int] is a [Z];
    - what the code takes from outside the repository (the import system,
      [numpy]'s generator and [numpy.load]) is a variable of the section
      that uses it. *)

From Stdlib Require Import ZArith List String Ascii Bool Lia SpecFloat.
From stdpp Require Import base option list strings gmap.
Import ListNotations.

Local Open Scope string_scope.
Local Open Scope Z_scope.

(** ** Python results and exceptions *)

Module Py.

(** The exceptions the embedded code can raise.  [ExternalError] stands for
    any other exception coming from a library call. *)
Inductive exn : Type :=
| AttributeError (attr : string)
| TypeError (msg : string)
| ValueError (msg : string)
| OverflowError (msg : string)
| ModuleNotFoundError (name : string)
| AssertionError
| ExternalError (what : string).

Inductive result (A : Type) : Type :=
| Ok (a : A)
| Raise (e : exn).

Arguments Ok {A} a.
Arguments Raise {A} e.

Definition bind {A B : Type} (r : result A) (k : A -> result B) : result B :=
  match r with
  | Ok a => k a
  | Raise e => Raise e
  end.

Definition succeeds {A : Type} (r : result A) : Prop := exists a, r = Ok a.

(** [getattr o name]: reading an attribute that was never assigned. *)
Definition getattr {A : Type} (name : string) (field : option A) : result A :=
  match field with
  | Some a => Ok a
  | None => Raise (AttributeError name)
  end.

(** A list comprehension whose element expression may raise: elements are
    evaluated left to right and the first exception aborts the whole
    comprehension. *)
Fixpoint comprehension {A B : Type} (f : A -> result B) (l : list A)
  : result (list B) :=
  match l with
  | [] => Ok []
  | a :: l' =>
      bind (f a) (fun b => bind (comprehension f l') (fun bs => Ok (b :: bs)))
  end.

End Py.

Import Py.

(** [result] is a monad; stdpp's [x ← r; k] sequences two calls. *)
#[global] Instance result_ret : MRet result := @Ok.
#[global] Instance result_bind : MBind result :=
  fun A B k r => Py.bind r k.

(** ** binary64 floats and Python numbers *)

Module Float64.

Definition prec : Z := 53.
Definition emax : Z := 1024.

(** Round-to-nearest-even conversion of an integer. *)
Definition of_Z (z : Z) : spec_float := binary_normalize prec emax z 0 false.

Definition zero : spec_float := S754_zero false.

(** The literal [1e-6]: the correctly rounded quotient of the two exactly
    representable numbers 1 and 10^6. *)
Definition lit_1e_6 : spec_float := SFdiv prec emax (of_Z 1) (of_Z 1000000).

Definition mul : spec_float -> spec_float -> spec_float := SFmul prec emax.
Definition add : spec_float -> spec_float -> spec_float := SFadd prec emax.
Definition sqrt : spec_float -> spec_float := SFsqrt prec emax.

Definition is_finite (f : spec_float) : bool :=
  match f with
  | S754_zero _ | S754_finite _ _ _ => true
  | S754_infinity _ | S754_nan => false
  end.

Definition signbit (f : spec_float) : bool :=
  match f with
  | S754_zero s | S754_infinity s | S754_finite s _ _ => s
  | S754_nan => false
  end.

Definition is_nan (f : spec_float) : bool :=
  match f with
  | S754_nan => true
  | _ => false
  end.

End Float64.

(** A Python number: the values an argument annotated [float] takes. *)
Inductive num : Type :=
| PyInt (z : Z)
| PyFloat (f : spec_float).

Module PyNum.

(** [float(z)] for an [int]: raises when [z] is beyond the binary64 range. *)
Definition to_float (z : Z) : result spec_float :=
  match Float64.of_Z z with
  | S754_infinity _ => Raise (OverflowError "int too large to convert to float")
  | f => Ok f
  end.

(** [a * b] on numbers. *)
Definition mul (a b : num) : result num :=
  match a, b with
  | PyInt x, PyInt y => Ok (PyInt (x * y))
  | PyInt x, PyFloat g => f ← to_float x; Ok (PyFloat (Float64.mul f g))
  | PyFloat f, PyInt y => g ← to_float y; Ok (PyFloat (Float64.mul f g))
  | PyFloat f, PyFloat g => Ok (PyFloat (Float64.mul f g))
  end.

(** [int(x)]: truncation towards zero. *)
Definition int (x : num) : result Z :=
  match x with
  | PyInt z => Ok z
  | PyFloat (S754_zero _) => Ok 0
  | PyFloat (S754_infinity _) =>
      Raise (OverflowError "cannot convert float infinity to integer")
  | PyFloat S754_nan => Raise (ValueError "cannot convert float NaN to integer")
  | PyFloat (S754_finite s m e) =>
      let a := Z.shiftl (Z.pos m) e in
      Ok (if s then - a else a)
  end.

End PyNum.

(** Keyword arguments ([**kwargs]) whose values are numbers. *)
Abbreviation kwargs := (gmap string num).

(** A one-dimensional [numpy] array of floats. *)
Definition ndarray : Type := list spec_float.

(** Values passed to and returned by the hardware operations. *)
Inductive pyval : Type :=
| VNone
| VInt (z : Z)
| VFloat (f : spec_float)
| VStr (s : string)
| VArrays (a : list ndarray).

(** ** Hardware instances driven through their operations

    A hardware class is seen from outside as a state (its instance
    attributes, and whatever global state its methods touch) and a set of
    operations; calling one either raises or returns a value and the new
    state. *)

Record device : Type := Device {
  dev_state : Type;
  dev_op : Type;
  dev_call : dev_op -> dev_state -> result (pyval * dev_state)
}.

(** Running a script of calls on an instance; the first exception aborts
    the script. *)
Fixpoint run (d : device) (ops : list (dev_op d)) (st : dev_state d)
  : result (list pyval * dev_state d) :=
  match ops with
  | [] => Ok ([], st)
  | o :: ops' =>
      '(v, st') ← dev_call d o st;
      '(vs, st'') ← run d ops' st';
      Ok (v :: vs, st'')
  end.

(** A method whose body is only a docstring: returns [None], changes
    nothing. *)
Definition do_nothing {S : Type} (self : S) : result (pyval * S) :=
  Ok (VNone, self).

(** A device none of whose operations can raise. *)
Definition never_raises (d : device) : Prop :=
  forall (o : dev_op d) (st : dev_state d), succeeds (dev_call d o st).

(** *** dac.py *)

Module FakeDAC.

Record t : Type := mk {
  emission : bool;                 (* emission state *)
  data : option (list ndarray)     (* data, [None] until loaded *)
}.

Definition __init__ (_location _channels : pyval) (_kwargs : kwargs) : t :=
  {| emission := false; data := None |}.

Definition open (self : t) := do_nothing self.
Definition close (self : t) := do_nothing self.

Definition set_emission_parameters (_args : list pyval) (_kwargs : kwargs)
  (self : t) := do_nothing self.

Definition load_data (d : list ndarray) (self : t) : result (pyval * t) :=
  Ok (VNone, {| emission := emission self; data := Some d |}).

Definition start_emission (self : t) : result (pyval * t) :=
  Ok (VNone, {| emission := true; data := data self |}).

Definition stop_emission (self : t) : result (pyval * t) :=
  Ok (VNone, {| emission := false; data := data self |}).

Inductive op : Type :=
| Open | Close
| SetEmissionParameters (args : list pyval) (kw : kwargs)
| LoadData (d : list ndarray)
| StartEmission | StopEmission.

Definition call (o : op) (self : t) : result (pyval * t) :=
  match o with
  | Open => open self
  | Close => close self
  | SetEmissionParameters a kw => set_emission_parameters a kw self
  | LoadData d => load_data d self
  | StartEmission => start_emission self
  | StopEmission => stop_emission self
  end.

Definition dev : device := Device t op call.

End FakeDAC.

(** *** dacadc.py *)

Module FakeDACADC.

Definition t : Type := unit.

Definition open (self : t) := do_nothing self.
Definition close (self : t) := do_nothing self.
Definition set_parameters (_kwargs : kwargs) (self : t) := do_nothing self.
Definition load_dac_data (_data : list ndarray) (self : t) := do_nothing self.
Definition get_adc_data (self : t) : result (pyval * t) := Ok (VArrays [], self).
Definition start (self : t) := do_nothing self.
Definition stop (self : t) := do_nothing self.

Inductive op : Type :=
| Open | Close | SetParameters (kw : kwargs) | LoadDacData (d : list ndarray)
| GetAdcData | Start | Stop.

Definition call (o : op) (self : t) : result (pyval * t) :=
  match o with
  | Open => open self
  | Close => close self
  | SetParameters kw => set_parameters kw self
  | LoadDacData d => load_dac_data d self
  | GetAdcData => get_adc_data self
  | Start => start self
  | Stop => stop self
  end.

Definition dev : device := Device t op call.

End FakeDACADC.

(** *** laser.py *)

Module FakeLaser.

Definition t : Type := unit.

Definition __init__ (_location : pyval) (_kwargs : kwargs) : t := tt.

Definition open (self : t) := do_nothing self.
Definition close (self : t) := do_nothing self.
Definition set_parameters (_kwargs : kwargs) (self : t) := do_nothing self.
Definition enable (self : t) := do_nothing self.
Definition disable (self : t) := do_nothing self.

Inductive op : Type :=
| Open | Close | SetParameters (kw : kwargs) | Enable | Disable.

Definition call (o : op) (self : t) : result (pyval * t) :=
  match o with
  | Open => open self
  | Close => close self
  | SetParameters kw => set_parameters kw self
  | Enable => enable self
  | Disable => disable self
  end.

Definition dev : device := Device t op call.

End FakeLaser.

(** *** modulator_bias_control.py *)

Module FakeModulatorBiasController.

Definition t : Type := unit.

Definition __init__ (_location : pyval) (_kwargs : kwargs) : t := tt.

Definition open (self : t) := do_nothing self.
Definition close (self : t) := do_nothing self.
Definition lock (_kwargs : kwargs) (self : t) := do_nothing self.

Inductive op : Type := Open | Close | Lock (kw : kwargs).

Definition call (o : op) (self : t) : result (pyval * t) :=
  match o with
  | Open => open self
  | Close => close self
  | Lock kw => lock kw self
  end.

Definition dev : device := Device t op call.

End FakeModulatorBiasController.

(** *** polarisation_controller.py *)

Inductive PolarisationControllerChannel : Type :=
| QWP_1   (* Quarter Wave Plate 1 *)
| HWP     (* Half Wave Plate, the default channel *)
| QWP_2.  (* Quarter Wave Plate 2 *)

Module FakePolarisationController.

Definition t : Type := unit.

(* inherited from GenericPolarisationController: all parameters ignored *)
Definition __init__ (_location : pyval) (_kwargs : kwargs) : t := tt.

Definition open (self : t) := do_nothing self.
Definition move_by (_increment : num) (_channel : PolarisationControllerChannel)
  (self : t) := do_nothing self.
Definition move_to (_position : num) (_channel : PolarisationControllerChannel)
  (self : t) := do_nothing self.
Definition home (self : t) := do_nothing self.
Definition get_position (_channel : PolarisationControllerChannel) (self : t)
  : result (pyval * t) := Ok (VFloat Float64.zero, self).
Definition close (self : t) := do_nothing self.

Inductive op : Type :=
| Open | Close | Home
| MoveBy (increment : num) (channel : PolarisationControllerChannel)
| MoveTo (position : num) (channel : PolarisationControllerChannel)
| GetPosition (channel : PolarisationControllerChannel).

Definition call (o : op) (self : t) : result (pyval * t) :=
  match o with
  | Open => open self
  | Close => close self
  | Home => home self
  | MoveBy i c => move_by i c self
  | MoveTo p c => move_to p c self
  | GetPosition c => get_position c self
  end.

Definition dev : device := Device t op call.

End FakePolarisationController.

(** *** powermeter.py *)

Module FakePowerMeter.

Definition t : Type := unit.

Definition __init__ (_args : list pyval) (_kwargs : kwargs) : t := tt.

Definition open (self : t) := do_nothing self.
Definition close (self : t) := do_nothing self.
Definition read (self : t) : result (pyval * t) :=
  Ok (VFloat Float64.lit_1e_6, self).

Inductive op : Type := Open | Close | Read.

Definition call (o : op) (self : t) : result (pyval * t) :=
  match o with
  | Open => open self
  | Close => close self
  | Read => read self
  end.

Definition dev : device := Device t op call.

End FakePowerMeter.

(** *** voltmeter.py *)

Module FakeVoltMeter.

Definition t : Type := unit.

Definition __init__ (_location : pyval) (_kwargs : kwargs) : t := tt.

Definition open (self : t) := do_nothing self.
Definition close (self : t) := do_nothing self.
Definition get_voltage (_kwargs : kwargs) (self : t) : result (pyval * t) :=
  Ok (VFloat Float64.zero, self).

Inductive op : Type := Open | Close | GetVoltage (kw : kwargs).

Definition call (o : op) (self : t) : result (pyval * t) :=
  match o with
  | Open => open self
  | Close => close self
  | GetVoltage kw => get_voltage kw self
  end.

Definition dev : device := Device t op call.

End FakeVoltMeter.

(** *** amperemeter.py *)

Module FakeAmpereMeter.

Definition t : Type := unit.

Definition __init__ (_location : pyval) (_kwargs : kwargs) : t := tt.

Definition open (self : t) := do_nothing self.
Definition close (self : t) := do_nothing self.
Definition get_current (_kwargs : kwargs) (self : t) : result (pyval * t) :=
  Ok (VFloat Float64.zero, self).

Inductive op : Type := Open | Close | GetCurrent (kw : kwargs).

Definition call (o : op) (self : t) : result (pyval * t) :=
  match o with
  | Open => open self
  | Close => close self
  | GetCurrent kw => get_current kw self
  end.

Definition dev : device := Device t op call.

End FakeAmpereMeter.

(** *** powersupply.py *)

Module FakePowerSupply.

Definition t : Type := unit.

Definition __init__ (_location : pyval) (_kwargs : kwargs) : t := tt.

Definition open (self : t) := do_nothing self.
Definition close (self : t) := do_nothing self.
Definition set_voltage (_voltage_value : num) (_channel : Z) (self : t) :=
  do_nothing self.
Definition set_intensity (_intensity_value : num) (_channel : Z) (self : t) :=
  do_nothing self.
Definition output (_status : Z) (_channel : Z) (self : t) := do_nothing self.

Inductive op : Type :=
| Open | Close
| SetVoltage (voltage_value : num) (channel : Z)
| SetIntensity (intensity_value : num) (channel : Z)
| Output (status : Z) (channel : Z).

Definition call (o : op) (self : t) : result (pyval * t) :=
  match o with
  | Open => open self
  | Close => close self
  | SetVoltage v c => set_voltage v c self
  | SetIntensity i c => set_intensity i c self
  | Output s c => output s c self
  end.

Definition dev : device := Device t op call.

End FakePowerSupply.

(** *** switch.py *)

Module FakeSwitch.

(** The fake switch has no attribute: nothing is saved by [set_state]. *)
Definition t : Type := unit.

Definition __init__ (_location : pyval) (_kwargs : kwargs) : t := tt.

Definition open (self : t) := do_nothing self.
Definition close (self : t) := do_nothing self.
Definition set_state (_state : Z) (self : t) := do_nothing self.
Definition read_state (self : t) : result (pyval * t) := Ok (VInt 0, self).

Inductive op : Type := Open | Close | SetState (state : Z) | ReadState.

Definition call (o : op) (self : t) : result (pyval * t) :=
  match o with
  | Open => open self
  | Close => close self
  | SetState s => set_state s self
  | ReadState => read_state self
  end.

Definition dev : device := Device t op call.

End FakeSwitch.

(** *** voa.py *)

Module FakeVOA.

Record t : Type := mk { value : num }.

Definition __init__ (_location : pyval) (_kwargs : kwargs) : t :=
  {| value := PyFloat Float64.zero |}.

Definition open (self : t) := do_nothing self.
Definition set_value (v : num) (self : t) : result (pyval * t) :=
  Ok (VNone, {| value := v |}).
Definition close (self : t) := do_nothing self.

Inductive op : Type := Open | Close | SetValue (v : num).

Definition call (o : op) (self : t) : result (pyval * t) :=
  match o with
  | Open => open self
  | Close => close self
  | SetValue v => set_value v self
  end.

Definition dev : device := Device t op call.

End FakeVOA.

(** ** The part of numpy the ADC fakes call *)

Module Numpy.

(** [np.sqrt(x)] on a Python number.  An [int] is first converted to a
    64-bit integer array scalar (signed, else unsigned); one that fits
    neither becomes an object, on which the ufunc has no loop. *)
Definition sqrt (x : num) : result spec_float :=
  match x with
  | PyFloat f => Ok (Float64.sqrt f)
  | PyInt z =>
      if (- 2 ^ 63 <=? z) && (z <? 2 ^ 64)
      then Ok (Float64.sqrt (Float64.of_Z z))
      else Raise (TypeError "loop of ufunc does not support argument 0 of type int")
  end.

Section Random.

(** The state of the global generator, and the draw of one standard
    normal deviate from it. *)
Context {rng : Type}.
Variable gauss : rng -> spec_float * rng.

Fixpoint standard_normal (n : nat) (g : rng) : list spec_float * rng :=
  match n with
  | O => ([], g)
  | S n' =>
      let '(z, g1) := gauss g in
      let '(zs, g2) := standard_normal n' g1 in
      (z :: zs, g2)
  end.

(** [np.random.normal(loc, scale, size)]: the scale is checked, then the
    output array is allocated, then each sample is [loc + scale * z]. *)
Definition normal (loc scale : spec_float) (size : Z) (g : rng)
  : result (ndarray * rng) :=
  if negb (Float64.is_nan scale) && Float64.signbit scale
  then Raise (ValueError "scale < 0")
  else if size <? 0
  then Raise (ValueError "negative dimensions are not allowed")
  else
    let '(zs, g') := standard_normal (Z.to_nat size) g in
    Ok (map (fun z => Float64.add loc (Float64.mul scale z)) zs, g').

End Random.

End Numpy.

(** ** adc.py *)

Module FakeADC.

Record t : Type := mk {
  channels : list pyval;             (* list of channels *)
  acquisition_time : option num;     (* unset until the parameters are set *)
  target_rate : option num           (* unset until the parameters are set *)
}.

Definition __init__ (_dev_id : pyval) (channels : list pyval)
  (_args : list pyval) (_kwargs : kwargs) : t :=
  {| channels := channels; acquisition_time := None; target_rate := None |}.

Definition open (self : t) := do_nothing self.
Definition close (self : t) := do_nothing self.

Definition _set_acquisition_parameters (acquisition_time target_rate : num)
  (self : t) : result (pyval * t) :=
  Ok (VNone, {| channels := channels self;
                acquisition_time := Some acquisition_time;
                target_rate := Some target_rate |}).

Definition set_acquisition_parameters (kw : kwargs) (self : t)
  : result (pyval * t) :=
  let acquisition_time := default (PyInt 0) (kw !! "acquisition_time") in
  let target_rate := default (PyInt 0) (kw !! "target_rate") in
  _set_acquisition_parameters acquisition_time target_rate self.

Definition arm_acquisition (self : t) := do_nothing self.
Definition stop_acquisition (self : t) := do_nothing self.
Definition trigger (self : t) := do_nothing self.

Definition _convert (data : ndarray) : ndarray := data.

Section WithGenerator.

Context {rng : Type}.
Variable gauss : rng -> spec_float * rng.

(** The element expression of the comprehension of [get_data]: its
    arguments are evaluated in the order they are written. *)
Definition one_channel (var : num) (self : t) (g : rng)
  : result (ndarray * rng) :=
  scale ← Numpy.sqrt var;
  a ← getattr "acquisition_time" (acquisition_time self);
  r ← getattr "target_rate" (target_rate self);
  p ← PyNum.mul a r;
  size ← PyNum.int p;
  '(x, g') ← Numpy.normal gauss Float64.zero scale size g;
  Ok (_convert x, g').

(** [[... for _ in self.channels]], threading the generator. *)
Fixpoint per_channel (var : num) (self : t) (chans : list pyval) (g : rng)
  : result (list ndarray * rng) :=
  match chans with
  | [] => Ok ([], g)
  | _ :: chans' =>
      '(x, g1) ← one_channel var self g;
      '(xs, g2) ← per_channel var self chans' g1;
      Ok (x :: xs, g2)
  end.

Definition get_data (kw : kwargs) (self : t) (g : rng)
  : result (list ndarray * rng) :=
  let var := default (PyInt 1) (kw !! "var") in
  per_channel var self (channels self) g.

Inductive op : Type :=
| Open | Close
| SetAcquisitionParameters (kw : kwargs)
| ArmAcquisition | StopAcquisition | Trigger
| GetData (kw : kwargs).

(** The state seen from outside: the instance and the global generator. *)
Definition lift (r : result (pyval * t)) (g : rng)
  : result (pyval * (t * rng)) :=
  '(v, self') ← r; Ok (v, (self', g)).

Definition call (o : op) (st : t * rng) : result (pyval * (t * rng)) :=
  let '(self, g) := st in
  match o with
  | Open => lift (open self) g
  | Close => lift (close self) g
  | SetAcquisitionParameters kw => lift (set_acquisition_parameters kw self) g
  | ArmAcquisition => lift (arm_acquisition self) g
  | StopAcquisition => lift (stop_acquisition self) g
  | Trigger => lift (trigger self) g
  | GetData kw => '(d, g') ← get_data kw self g; Ok (VArrays d, (self, g'))
  end.

Definition dev : device := Device (t * rng) op call.

End WithGenerator.

End FakeADC.

Module LoadingADC.

Record t : Type := mk {
  channels : list pyval;           (* list of channels *)
  paths : option (list string);    (* unset until the parameters are set *)
  data : option (list ndarray)     (* unset until the first trigger *)
}.

Definition __init__ (_dev_id : pyval) (channels : list pyval)
  (_args : list pyval) (_kwargs : kwargs) : t :=
  {| channels := channels; paths := None; data := None |}.

Definition open (self : t) := do_nothing self.
Definition close (self : t) := do_nothing self.

Definition _set_acquisition_parameters (ps : list string) (self : t)
  : result (pyval * t) :=
  Ok (VNone, {| channels := channels self; paths := Some ps; data := data self |}).

(** The only keyword read is [paths], a list of strings. *)
Definition set_acquisition_parameters (kw : gmap string (list string)) (self : t)
  : result (pyval * t) :=
  let ps := default [] (kw !! "paths") in
  _set_acquisition_parameters ps self.

Definition arm_acquisition (self : t) := do_nothing self.
Definition stop_acquisition (self : t) := do_nothing self.

Definition _convert (data : ndarray) : ndarray := data.

Definition get_data (self : t) : result (list ndarray * t) :=
  d ← getattr "data" (data self);
  Ok (map _convert d, self).

Section WithFiles.

(** [np.load(path)] on the files as they are when [trigger] runs. *)
Variable np_load : string -> result ndarray.

Definition trigger (self : t) : result (pyval * t) :=
  ps ← getattr "paths" (paths self);
  d ← comprehension np_load ps;
  Ok (VNone, {| channels := channels self; paths := paths self; data := Some d |}).

Inductive op : Type :=
| Open | Close
| SetAcquisitionParameters (kw : gmap string (list string))
| ArmAcquisition | StopAcquisition | Trigger | GetData.

Definition call (o : op) (self : t) : result (pyval * t) :=
  match o with
  | Open => open self
  | Close => close self
  | SetAcquisitionParameters kw => set_acquisition_parameters kw self
  | ArmAcquisition => arm_acquisition self
  | StopAcquisition => stop_acquisition self
  | Trigger => trigger self
  | GetData => '(d, self') ← get_data self; Ok (VArrays d, self')
  end.

Definition dev : device := Device t op call.

End WithFiles.

End LoadingADC.

(** ** utils.py *)

(** A Python [dict] keyed by strings: entries are kept in insertion order,
    and assigning to a key that is present keeps its position. *)
Module Dict.

Definition t (V : Type) : Type := list (string * V).

Fixpoint get {V : Type} (k : string) (d : t V) : option V :=
  match d with
  | [] => None
  | (k', v) :: d' => if String.eqb k k' then Some v else get k d'
  end.

(** [d[k] = v] *)
Fixpoint set {V : Type} (k : string) (v : V) (d : t V) : t V :=
  match d with
  | [] => [(k, v)]
  | (k', v') :: d' =>
      if String.eqb k k' then (k, v) :: d' else (k', v') :: set k v d'
  end.

(** [d[k].append(x)] for a key that is present. *)
Fixpoint append {V : Type} (k : string) (x : V) (d : t (list V)) : t (list V) :=
  match d with
  | [] => []
  | (k', l) :: d' =>
      if String.eqb k k' then (k', (l ++ [x])%list) :: d' else (k', l) :: append k x d'
  end.

End Dict.

Module Utils.

Definition newline : string := String "010"%char EmptyString.

Section Classes.

(** Constructor arguments and instances are left abstract. *)
Context {Args Inst : Type}.

(** A class object: its identity, its [__name__], the identities of its
    proper ancestors, and what calling it does (allocation followed by
    [__init__]). *)
Record pyclass : Type := Class {
  cls_id : positive;
  __name__ : string;
  cls_ancestors : list positive;
  cls_init : Args -> result Inst
}.

(** Calling the class object. *)
Definition construct (c : pyclass) (args : Args) : result Inst :=
  cls_init c args.

(** [a == b] on class objects is identity. *)
Definition class_eqb (a b : pyclass) : bool :=
  Pos.eqb (cls_id a) (cls_id b).

Definition issubclass (c base : pyclass) : bool :=
  class_eqb c base || existsb (Pos.eqb (cls_id base)) (cls_ancestors c).

(** A member of a module namespace. *)
Inductive pyobj : Type :=
| PyClass (c : pyclass)
| PyOther.

Definition isclass (o : pyobj) : bool :=
  match o with
  | PyClass _ => true
  | PyOther => false
  end.

(** *** list_hardware *)

(** An imported module: its [__file__] and the (name, value) pairs that
    [inspect.getmembers] returns for it. *)
Record pymodule : Type := Module_ {
  __file__ : option string;
  getmembers : list (string * pyobj)
}.

(** The base class of every hardware class, defined in [qosst_hal/base.py]. *)
Variable QOSSTHardware : pyclass.

(** The import system: [importlib.import_module], the names yielded by
    [pkgutil.iter_modules] for a list of directories, and
    [str(Path(f).parent)]. *)
Variable import_module : string -> result pymodule.
Variable iter_modules : list string -> list string.
Variable parent : string -> string.

(** The test of the inner loop. *)
Definition is_hardware (obj : pyobj) : bool :=
  match obj with
  | PyClass c =>
      isclass obj && issubclass c QOSSTHardware
      && negb (class_eqb c QOSSTHardware)
  | PyOther => false
  end.

(** The inner loop, over the members of one submodule. *)
Fixpoint scan_members (submodule : string) (ms : list (string * pyobj))
  (res : Dict.t (list string)) : Dict.t (list string) :=
  match ms with
  | [] => res
  | (name, obj) :: ms' =>
      scan_members submodule ms'
        (if is_hardware obj then Dict.append submodule name res else res)
  end.

(** The outer loop, over the submodules. *)
Fixpoint scan_submodules (package : string) (submodules : list string)
  (res : Dict.t (list string)) : result (Dict.t (list string)) :=
  match submodules with
  | [] => Ok res
  | submodule :: rest =>
      let res1 := Dict.set submodule [] res in
      m ← import_module (package +:+ "." +:+ submodule);
      scan_submodules package rest (scan_members submodule (getmembers m) res1)
  end.

Definition list_hardware (package : string) : result (Dict.t (list string)) :=
  match import_module package with
  | Raise (ModuleNotFoundError _) => Ok []
  | Raise e => Raise e
  | Ok loaded_package =>
      match __file__ loaded_package with
      | None => Raise AssertionError
      | Some file =>
          scan_submodules package (iter_modules [parent file]) []
      end
  end.

(** *** list_hardware_str *)

Fixpoint dashes (n : nat) : string :=
  match n with
  | O => EmptyString
  | S n' => "-" +:+ dashes n'
  end.

Fixpoint bullets (names : list string) : string :=
  match names with
  | [] => EmptyString
  | name :: names' => ("* " +:+ name +:+ newline) +:+ bullets names'
  end.

(** What one submodule with at least one hardware class adds to the text. *)
Definition section_text (submodule : string) (hw : list string) : string :=
  (submodule +:+ newline)
  +:+ (dashes (String.length submodule) +:+ newline)
  +:+ bullets hw
  +:+ newline.

Definition add_entry (res : string) (entry : string * list string) : string :=
  let '(submodule, submodule_hardware) := entry in
  match submodule_hardware with
  | [] => res
  | _ :: _ => res +:+ section_text submodule submodule_hardware
  end.

Definition header (package : string) : string :=
  "Hardware of package " +:+ package +:+ newline +:+ newline.

Definition list_hardware_str (package : string) : result string :=
  hardware ← list_hardware package;
  Ok (fold_left add_entry hardware (header package)).

(** *** need_modules *)

(** [importlib.util.find_spec] applied to a top-level module name: a spec,
    or [None] when the module cannot be found. *)
Context {ModuleSpec : Type}.
Variable find_spec : string -> option ModuleSpec.

(** [repr] of a [str]. *)
Variable repr : string -> string.

Fixpoint join (sep : string) (l : list string) : string :=
  match l with
  | [] => EmptyString
  | [x] => x
  | x :: l' => x +:+ sep +:+ join sep l'
  end.

(** [repr] of a tuple of strings, as the f-string formats [modules]. *)
Definition repr_tuple (l : list string) : string :=
  match l with
  | [] => "()"
  | [x] => "(" +:+ repr x +:+ ",)"
  | _ => "(" +:+ join ", " (map repr l) +:+ ")"
  end.

(** The loop [res = res and find_spec(module) is not None]. *)
Definition all_found (modules : list string) : bool :=
  fold_left
    (fun res module => res && bool_decide (is_Some (find_spec module)))
    modules true.

(** The text of the [TypeError]; the backslash at the end of the first
    source line joins it to the second, indentation included. *)
Definition message (name : string) (modules : list string) : string :=
  "You are trying to use the class " +:+ name
  +:+ " which requires the optional "
  +:+ "                            modules : "
  +:+ repr_tuple modules
  +:+ " and at least one is not installed.".

(** [class ReplacementClass(initial_class)], created as the class object
    number [id]. *)
Definition ReplacementClass (modules : list string) (initial_class : pyclass)
  (id : positive) : pyclass :=
  {| cls_id := id;
     __name__ := "ReplacementClass";
     cls_ancestors := cls_id initial_class :: cls_ancestors initial_class;
     cls_init := fun _ =>
       Raise (TypeError (message (__name__ initial_class) modules)) |}.

(** The decorator; [next] is the number the next class object gets, and
    is returned updated. *)
Definition decorator (modules : list string) (initial_class : pyclass)
  (next : positive) : pyclass * positive :=
  let res := all_found modules in
  if negb res
  then (ReplacementClass modules initial_class next, Pos.succ next)
  else (initial_class, next).

Definition need_modules (modules : list string)
  : pyclass -> positive -> pyclass * positive :=
  decorator modules.

End Classes.

End Utils.

(** ** Notions used to state the properties *)

(** After any script of calls, a read on [d] by the operation [o] returns
    [v] and changes nothing. *)
Definition reads_constant (d : device) (o : dev_op d) (v : pyval) : Prop :=
  forall (ops : list (dev_op d)) (st : dev_state d),
  exists vs st',
    run d ops st = Ok (vs, st') /\ dev_call d o st' = Ok (v, st').

(** One text occurring inside another. *)
Definition occurs_in (sub s : string) : Prop :=
  exists pre post, s = pre +:+ sub +:+ post.

(** The names under which the hardware classes of a module are found by
    [inspect.getmembers]: [p] is the test applied to each member. *)
Definition names_where {O : Type} (p : O -> bool) (ms : list (string * O))
  : list string :=
  map fst (List.filter (fun m => p m.2) ms).

(** The text of a list of sections, one after the other. *)
Fixpoint sections_text (sections : list (string * list string)) : string :=
  match sections with
  | [] => EmptyString
  | (submodule, hw) :: rest =>
      Utils.section_text submodule hw +:+ sections_text rest
  end.

Definition has_hardware (entry : string * list string) : bool :=
  match entry.2 with
  | [] => false
  | _ :: _ => true
  end.

(** When [FakeADC.get_data] can work: the two parameters are set and their
    product converts to a sample count that is not negative, and the variance
    has a square root that numpy accepts as a scale. *)
Definition valid_size (a r : num) : Prop :=
  exists n, (p ← PyNum.mul a r; PyNum.int p) = Ok n /\ 0 <= n.

Definition valid_var (var : num) : Prop :=
  exists scale,
    Numpy.sqrt var = Ok scale
    /\ negb (Float64.is_nan scale) && Float64.signbit scale = false.

Definition FakeADC_ready (self : FakeADC.t) : Prop :=
  exists a r,
    FakeADC.acquisition_time self = Some a
    /\ FakeADC.target_rate self = Some r
    /\ valid_size a r.

(** ** A small concrete setting

    A package [lab] with two submodules, [adc] (two hardware classes) and
    [utils] (none: it only imports [QOSSTHardware]); an environment in which
    [numpy] is installed and [zhinst] is not; two recorded files; and a
    generator that alternates between two deviates. *)

Module Example.

Definition cls (id : positive) (name : string) (ancestors : list positive)
  : @Utils.pyclass unit unit :=
  Utils.Class id name ancestors (fun _ => Ok tt).

Definition QOSSTHardware := cls 1 "QOSSTHardware" [].
Definition GenericADC := cls 2 "GenericADC" [1%positive].
Definition FakeADC_cls := cls 3 "FakeADC" [2%positive; 1%positive].
Definition LoadingADC_cls := cls 4 "LoadingADC" [2%positive; 1%positive].

Definition lab : @Utils.pymodule unit unit :=
  Utils.Module_ (Some "/site/lab/__init__.py") [].

Definition lab_adc : @Utils.pymodule unit unit :=
  Utils.Module_ (Some "/site/lab/adc.py")
    [("FakeADC", Utils.PyClass FakeADC_cls);
     ("LoadingADC", Utils.PyClass LoadingADC_cls);
     ("QOSSTHardware", Utils.PyClass QOSSTHardware);
     ("np", Utils.PyOther)].

Definition lab_utils : @Utils.pymodule unit unit :=
  Utils.Module_ (Some "/site/lab/utils.py")
    [("QOSSTHardware", Utils.PyClass QOSSTHardware);
     ("list_hardware", Utils.PyOther)].

Definition import_module (name : string) : result (@Utils.pymodule unit unit) :=
  if String.eqb name "lab" then Ok lab
  else if String.eqb name "lab.adc" then Ok lab_adc
  else if String.eqb name "lab.utils" then Ok lab_utils
  else Raise (ModuleNotFoundError name).

Definition iter_modules (dirs : list string) : list string := ["adc"; "utils"].

Definition parent (file : string) : string := "/site/lab".

Definition mods (submodule : string) : @Utils.pymodule unit unit :=
  if String.eqb submodule "adc" then lab_adc else lab_utils.

Definition find_spec (module : string) : option unit :=
  if String.eqb module "numpy" then Some tt else None.

Definition repr (s : string) : string := "'" +:+ s +:+ "'".

Definition recorded0 : ndarray := [Float64.of_Z 1; Float64.of_Z (-2)].
Definition recorded1 : ndarray := [Float64.of_Z 3].

Definition np_load (path : string) : result ndarray :=
  if String.eqb path "ch0.npy" then Ok recorded0
  else if String.eqb path "ch1.npy" then Ok recorded1
  else Raise (ExternalError "FileNotFoundError").

Definition gauss (g : bool) : spec_float * bool :=
  (if g then Float64.of_Z 1 else Float64.of_Z (-2), negb g).

(** The package [lab] when the file of its submodule [utils] is broken. *)
Definition import_broken (name : string) : result (@Utils.pymodule unit unit) :=
  if String.eqb name "lab" then Ok lab
  else if String.eqb name "lab.adc" then Ok lab_adc
  else Raise (ExternalError "SyntaxError").

(** A [FakeADC] with two channels, set to 2.0 s at 10.0 Hz, and one set to a
    negative acquisition time. *)
Definition adc_ready : FakeADC.t :=
  FakeADC.mk [VInt 0; VInt 1]
    (Some (PyFloat (Float64.of_Z 2))) (Some (PyFloat (Float64.of_Z 10))).

Definition adc_negative : FakeADC.t :=
  FakeADC.mk [VInt 0; VInt 1] (Some (PyInt (-1))) (Some (PyInt 3)).

(** A [LoadingADC] that holds the data of one file. *)
Definition loading_loaded : LoadingADC.t :=
  LoadingADC.mk [VInt 0] (Some ["ch0.npy"]) (Some [recorded0]).

End Example.

(** ** What a script of calls leaves in the attributes of a fake *)

(** The value a [FakeVOA] holds after a script: the one of the last
    [set_value], or the one it had. *)
Definition last_value (ops : list FakeVOA.op) (v : num) : num :=
  fold_left (fun v o => match o with FakeVOA.SetValue x => x | _ => v end) ops v.

(** The emission flag of a [FakeDAC] after a script: set by the last
    [start_emission] or [stop_emission]. *)
Definition last_emission (ops : list FakeDAC.op) (e : bool) : bool :=
  fold_left
    (fun e o =>
       match o with
       | FakeDAC.StartEmission => true
       | FakeDAC.StopEmission => false
       | _ => e
       end) ops e.

(** The data of a [FakeDAC] after a script: the one of the last [load_data]. *)
Definition last_data (ops : list FakeDAC.op) (d : option (list ndarray))
  : option (list ndarray) :=
  fold_left
    (fun d o => match o with FakeDAC.LoadData x => Some x | _ => d end) ops d.

(** An operation of [LoadingADC] other than [trigger]. *)
Definition not_trigger (o : LoadingADC.op) : Prop :=
  match o with
  | LoadingADC.Trigger => False
  | _ => True
  end.

(** * Properties *)

(** ** Results and scripts of calls *)

Lemma succeeds_Ok {A : Type} (a : A) : succeeds (Ok a).
Proof. by exists a. Qed.

(** A device that never raises runs every script to its end, with one
    returned value per call. *)
Lemma never_raises_run (d : device) :
  never_raises d ->
  forall (ops : list (dev_op d)) (st : dev_state d),
  exists vs st', run d ops st = Ok (vs, st') /\ length vs = length ops.
Proof.
  intros Hd ops. induction ops as [|o ops IH]; intros st; cbn.
  - by exists [], st.
  - destruct (Hd o st) as [[v st1] ->]. cbn.
    destruct (IH st1) as (vs & st2 & -> & Hlen). cbn.
    exists (v :: vs), st2. split; [done|]. cbn. by rewrite Hlen.
Qed.

(** ** The fakes without attributes, or whose attributes are always set *)

Ltac fake_never_raises :=
  intros o st; destruct o; cbn; apply succeeds_Ok.

Lemma FakeDAC_never_raises : never_raises FakeDAC.dev.
Proof. fake_never_raises. Qed.

Lemma FakeDACADC_never_raises : never_raises FakeDACADC.dev.
Proof. fake_never_raises. Qed.

Lemma FakeLaser_never_raises : never_raises FakeLaser.dev.
Proof. fake_never_raises. Qed.

Lemma FakeModulatorBiasController_never_raises :
  never_raises FakeModulatorBiasController.dev.
Proof. fake_never_raises. Qed.

Lemma FakePolarisationController_never_raises :
  never_raises FakePolarisationController.dev.
Proof. fake_never_raises. Qed.

Lemma FakePowerMeter_never_raises : never_raises FakePowerMeter.dev.
Proof. fake_never_raises. Qed.

Lemma FakeVoltMeter_never_raises : never_raises FakeVoltMeter.dev.
Proof. fake_never_raises. Qed.

Lemma FakeAmpereMeter_never_raises : never_raises FakeAmpereMeter.dev.
Proof. fake_never_raises. Qed.

Lemma FakePowerSupply_never_raises : never_raises FakePowerSupply.dev.
Proof. fake_never_raises. Qed.

Lemma FakeSwitch_never_raises : never_raises FakeSwitch.dev.
Proof. fake_never_raises. Qed.

Lemma FakeVOA_never_raises : never_raises FakeVOA.dev.
Proof. fake_never_raises. Qed.

(** The literal [1e-6] is the binary64 number 0x1.0c6f7a0b5ed8dp-20. *)
Lemma lit_1e_6_value :
  Float64.lit_1e_6 = S754_finite false 4722366482869645 (-72).
Proof. vm_compute. reflexivity. Qed.

Lemma never_raises_reads_constant (d : device) (o : dev_op d) (v : pyval) :
  never_raises d ->
  (forall st, dev_call d o st = Ok (v, st)) ->
  reads_constant d o v.
Proof.
  intros Hd Ho ops st.
  destruct (never_raises_run d Hd ops st) as (vs & st' & Hrun & _).
  by exists vs, st'.
Qed.

(** C9: whatever contract operations were called before ([open], [close],
    reads, ... in any number and order), [FakeVoltMeter.get_voltage] returns
    0.0, [FakePowerMeter.read] returns 1e-6, [FakeAmpereMeter.get_current]
    returns 0.0 and [FakeSwitch.read_state] returns 0. *)
Theorem fake_reads_return_their_constant :
  (forall kw, reads_constant FakeVoltMeter.dev (FakeVoltMeter.GetVoltage kw)
                (VFloat (S754_zero false)))
  /\ reads_constant FakePowerMeter.dev FakePowerMeter.Read
       (VFloat (S754_finite false 4722366482869645 (-72)))
  /\ (forall kw, reads_constant FakeAmpereMeter.dev (FakeAmpereMeter.GetCurrent kw)
                   (VFloat (S754_zero false)))
  /\ reads_constant FakeSwitch.dev FakeSwitch.ReadState (VInt 0).
Proof.
  repeat split; intros.
  - apply never_raises_reads_constant; [apply FakeVoltMeter_never_raises|done].
  - apply never_raises_reads_constant; [apply FakePowerMeter_never_raises|].
    intros st. cbn. unfold FakePowerMeter.read. by rewrite lit_1e_6_value.
  - apply never_raises_reads_constant; [apply FakeAmpereMeter_never_raises|done].
  - apply never_raises_reads_constant; [apply FakeSwitch_never_raises|done].
Qed.

(** ** switch.py: the fake does not cache the commanded state *)

(** C7, as amended: on the fake switch, [read_state()] after [set_state(s)]
    returns 0 for every [s]; nothing is cached. *)
Theorem FakeSwitch_read_state_after_set_state (s : Z) (self : FakeSwitch.t) :
  run FakeSwitch.dev [FakeSwitch.SetState s; FakeSwitch.ReadState] self
  = Ok ([VNone; VInt 0], self).
Proof. reflexivity. Qed.

(** C7 fails as stated: after [set_state(5)] the fake switch reads 0, not 5. *)
Lemma FakeSwitch_does_not_return_commanded_state :
  run FakeSwitch.dev [FakeSwitch.SetState 5; FakeSwitch.ReadState]
      (FakeSwitch.__init__ (VStr "COM3") ∅)
  = Ok ([VNone; VInt 0], tt)
  /\ VInt 0 <> VInt 5.
Proof. split; [reflexivity|discriminate]. Qed.

(** ** dac.py: what each operation of the fake DAC changes *)

(** C10: a new [FakeDAC] has [emission = False] and [data = None];
    [start_emission] and [stop_emission] set the flag and keep the data,
    [load_data] sets the data and keeps the flag. *)
Theorem FakeDAC_frame :
  (forall loc chans kw,
     FakeDAC.emission (FakeDAC.__init__ loc chans kw) = false
     /\ FakeDAC.data (FakeDAC.__init__ loc chans kw) = None)
  /\ (forall self, exists self',
        FakeDAC.start_emission self = Ok (VNone, self')
        /\ FakeDAC.emission self' = true
        /\ FakeDAC.data self' = FakeDAC.data self)
  /\ (forall self, exists self',
        FakeDAC.stop_emission self = Ok (VNone, self')
        /\ FakeDAC.emission self' = false
        /\ FakeDAC.data self' = FakeDAC.data self)
  /\ (forall d self, exists self',
        FakeDAC.load_data d self = Ok (VNone, self')
        /\ FakeDAC.data self' = Some d
        /\ FakeDAC.emission self' = FakeDAC.emission self).
Proof.
  repeat split; intros; eexists; repeat split.
Qed.

(** ** Strings *)

Lemma string_app_assoc (a b c : string) : (a +:+ b) +:+ c = a +:+ (b +:+ c).
Proof.
  induction a as [|x a IH]; [reflexivity|].
  change (String x ((a +:+ b) +:+ c) = String x (a +:+ (b +:+ c))).
  by rewrite IH.
Qed.

Lemma string_app_nil_r (a : string) : a +:+ EmptyString = a.
Proof.
  induction a as [|x a IH]; [reflexivity|].
  change (String x (a +:+ EmptyString) = String x a).
  by rewrite IH.
Qed.

Lemma occurs_in_refl (s : string) : occurs_in s s.
Proof. exists EmptyString, EmptyString. cbn. by rewrite string_app_nil_r. Qed.

Lemma occurs_in_app_r (sub a b : string) : occurs_in sub b -> occurs_in sub (a +:+ b).
Proof.
  intros (pre & post & ->). exists (a +:+ pre), post.
  by rewrite string_app_assoc.
Qed.

Lemma occurs_in_app_l (sub a b : string) : occurs_in sub a -> occurs_in sub (a +:+ b).
Proof.
  intros (pre & post & ->). exists pre, (post +:+ b).
  by rewrite !string_app_assoc.
Qed.

Create HintDb occurs.
#[local] Hint Resolve occurs_in_refl occurs_in_app_l occurs_in_app_r : occurs.

(** ** need_modules *)

Section NeedModules.

Context {Args Inst ModuleSpec : Type}.
Variable find_spec : string -> option ModuleSpec.
Variable repr : string -> string.

Local Abbreviation pyclass := (@Utils.pyclass Args Inst).
Local Abbreviation need_modules := (Utils.need_modules find_spec repr).
Local Abbreviation all_found := (Utils.all_found find_spec).

Lemma all_found_from (modules : list string) (res : bool) :
  fold_left
    (fun res module => res && bool_decide (is_Some (find_spec module)))
    modules res
  = res && forallb (fun module => bool_decide (is_Some (find_spec module))) modules.
Proof.
  revert res. induction modules as [|m modules IH]; intros res; cbn.
  - by rewrite andb_true_r.
  - rewrite IH. by rewrite andb_assoc.
Qed.

Lemma all_found_true (modules : list string) :
  all_found modules = true <-> forall m, m ∈ modules -> is_Some (find_spec m).
Proof.
  unfold Utils.all_found. rewrite all_found_from. cbn.
  rewrite forallb_forall. split.
  - intros H m Hm. eapply bool_decide_eq_true_1. apply H.
    by apply list_elem_of_In.
  - intros H m Hm. apply bool_decide_eq_true_2, H.
    by apply list_elem_of_In.
Qed.

Lemma all_found_false (modules : list string) (m : string) :
  m ∈ modules -> find_spec m = None -> all_found modules = false.
Proof.
  intros Hm Hnone. destruct (all_found modules) eqn:E; [|done].
  apply all_found_true with (m := m) in E; [|done].
  rewrite Hnone in E. by destruct E.
Qed.

Lemma join_names (l : list string) (m : string) :
  m ∈ l -> occurs_in (repr m) (Utils.join ", " (map repr l)).
Proof.
  induction l as [|x l IH]; intros Hm.
  - by apply elem_of_nil in Hm.
  - apply elem_of_cons in Hm as [->|Hm].
    + destruct l as [|y l]; cbn; auto with occurs.
    + specialize (IH Hm). destruct l as [|y l].
      * by apply elem_of_nil in Hm.
      * change (Utils.join ", " (map repr (x :: y :: l)))
          with (repr x +:+ ", " +:+ Utils.join ", " (map repr (y :: l))).
        auto with occurs.
Qed.

Lemma repr_tuple_names (l : list string) (m : string) :
  m ∈ l -> occurs_in (repr m) (Utils.repr_tuple repr l).
Proof.
  intros Hm. destruct l as [|x [|y l]].
  - by apply elem_of_nil in Hm.
  - apply list_elem_of_singleton in Hm as ->.
    unfold Utils.repr_tuple. auto with occurs.
  - unfold Utils.repr_tuple.
    apply occurs_in_app_r, occurs_in_app_l. by apply join_names.
Qed.

Lemma message_names (name : string) (modules : list string) (m : string) :
  m ∈ modules -> occurs_in (repr m) (Utils.message repr name modules).
Proof.
  intros Hm. unfold Utils.message.
  do 4 apply occurs_in_app_r. apply occurs_in_app_l.
  by apply repr_tuple_names.
Qed.


(** C2: when every required module is found, [need_modules] returns the
    decorated class itself, so that calling it is calling the original. *)
Theorem need_modules_available (modules : list string) (C : pyclass)
  (next : positive) :
  (forall m, m ∈ modules -> is_Some (find_spec m)) ->
  need_modules modules C next = (C, next)
  /\ forall args,
       Utils.construct (need_modules modules C next).1 args
       = Utils.construct C args.
Proof.
  intros Hall. apply all_found_true in Hall.
  assert (need_modules modules C next = (C, next)) as E.
  { unfold Utils.need_modules, Utils.decorator. by rewrite Hall. }
  split; [done|]. intros args. by rewrite E.
Qed.

End NeedModules.


(** ** Dictionaries in insertion order *)

Lemma Dict_set_fresh {V : Type} (k : string) (v : V) (d : Dict.t V) :
  k ∉ map fst d -> Dict.set k v d = (d ++ [(k, v)])%list.
Proof.
  induction d as [|[k' v'] d IH]; intros Hk; cbn; [done|].
  cbn in Hk. apply not_elem_of_cons in Hk as [Hne Hk].
  destruct (String.eqb_spec k k') as [->|_]; [done|].
  by rewrite IH.
Qed.

Lemma Dict_append_last {V : Type} (k : string) (x : V) (l : list V)
  (d : Dict.t (list V)) :
  k ∉ map fst d ->
  Dict.append k x (d ++ [(k, l)])%list = (d ++ [(k, (l ++ [x])%list)])%list.
Proof.
  induction d as [|[k' l'] d IH]; intros Hk; cbn.
  - by rewrite String.eqb_refl.
  - cbn in Hk. apply not_elem_of_cons in Hk as [Hne Hk].
    destruct (String.eqb_spec k k') as [->|_]; [done|].
    by rewrite IH.
Qed.

Lemma Dict_get_entries {V : Type} (f : string -> V) (keys : list string)
  (k : string) :
  k ∈ keys -> Dict.get k (map (fun s => (s, f s)) keys) = Some (f k).
Proof.
  induction keys as [|k' keys IH]; intros Hk; cbn.
  - by apply elem_of_nil in Hk.
  - destruct (String.eqb_spec k k') as [->|Hne]; [done|].
    apply elem_of_cons in Hk as [->|Hk]; [done|auto].
Qed.

(** ** list_hardware and list_hardware_str *)

Section Registry.

Context {Args Inst : Type}.
Variable QOSSTHardware : @Utils.pyclass Args Inst.
Variable import_module : string -> result (@Utils.pymodule Args Inst).
Variable iter_modules : list string -> list string.
Variable parent : string -> string.

Local Abbreviation is_hardware := (Utils.is_hardware QOSSTHardware).
Local Abbreviation scan_members := (Utils.scan_members QOSSTHardware).
Local Abbreviation scan_submodules :=
  (Utils.scan_submodules QOSSTHardware import_module).
Local Abbreviation list_hardware :=
  (Utils.list_hardware QOSSTHardware import_module iter_modules parent).
Local Abbreviation list_hardware_str :=
  (Utils.list_hardware_str QOSSTHardware import_module iter_modules parent).

(** The inner loop appends to the entry of the submodule, the last one of
    the dictionary, the names of its hardware classes in member order. *)
Lemma scan_members_last (submodule : string)
  (ms : list (string * Utils.pyobj)) (l : list string)
  (d : Dict.t (list string)) :
  submodule ∉ map fst d ->
  scan_members submodule ms (d ++ [(submodule, l)])%list
  = (d ++ [(submodule, (l ++ names_where is_hardware ms)%list)])%list.
Proof.
  intros Hk. revert l. induction ms as [|[name obj] ms IH]; intros l.
  - cbn. by rewrite app_nil_r.
  - cbn [Utils.scan_members]. unfold names_where. cbn [List.filter snd].
    destruct (is_hardware obj).
    + rewrite Dict_append_last by done. rewrite IH.
      unfold names_where. cbn. by rewrite <- app_assoc.
    + by rewrite IH.
Qed.

(** The outer loop adds one entry per submodule, in order. *)
Lemma scan_submodules_entries (package : string)
  (mods : string -> Utils.pymodule) (submodules : list string)
  (d : Dict.t (list string)) :
  NoDup submodules ->
  (forall s, s ∈ submodules -> s ∉ map fst d) ->
  (forall s, s ∈ submodules ->
     import_module (package +:+ "." +:+ s) = Ok (mods s)) ->
  scan_submodules package submodules d
  = Ok (d ++ map (fun s => (s, names_where is_hardware (Utils.getmembers (mods s))))
                 submodules)%list.
Proof.
  revert d. induction submodules as [|s rest IH]; intros d Hnd Hfresh Himp.
  - cbn. by rewrite app_nil_r.
  - apply NoDup_cons in Hnd as [Hs Hnd].
    cbn [Utils.scan_submodules].
    rewrite (Himp s) by apply list_elem_of_here. cbn.
    rewrite Dict_set_fresh by (apply Hfresh, list_elem_of_here).
    rewrite scan_members_last by (apply Hfresh, list_elem_of_here).
    rewrite IH.
    + cbn. by rewrite <- app_assoc.
    + done.
    + intros s' Hs'. rewrite map_app. cbn. intros Hin.
      apply elem_of_app in Hin as [Hin|Hin].
      * by apply (Hfresh s'); [apply list_elem_of_further|].
      * apply list_elem_of_singleton in Hin as ->. done.
    + intros s' Hs'. apply Himp. by apply list_elem_of_further.
Qed.

(** C6: when importing the package raises [ModuleNotFoundError],
    [list_hardware] returns the empty dictionary instead of raising. *)
Theorem list_hardware_package_not_found (package name : string) :
  import_module package = Raise (ModuleNotFoundError name) ->
  list_hardware package = Ok [].
Proof. intros H. unfold Utils.list_hardware. by rewrite H. Qed.

(** The text is the header followed by the sections of the entries that
    have at least one hardware class, in dictionary order. *)
Lemma fold_add_entry (hardware : Dict.t (list string)) (res : string) :
  fold_left Utils.add_entry hardware res
  = res +:+ sections_text (List.filter has_hardware hardware).
Proof.
  revert res. induction hardware as [|[submodule hw] rest IH]; intros res.
  - cbn. by rewrite string_app_nil_r.
  - cbn [fold_left List.filter]. destruct hw as [|name hw].
    + cbn. apply IH.
    + cbn [Utils.add_entry has_hardware snd]. rewrite IH.
      cbn [sections_text]. by rewrite string_app_assoc.
Qed.

(** What [list_hardware] returns for a package that can be inspected: one
    entry per submodule, with the names of its hardware classes. *)
Lemma list_hardware_inspectable (package file : string)
  (loaded : Utils.pymodule) (mods : string -> Utils.pymodule) :
  import_module package = Ok loaded ->
  Utils.__file__ loaded = Some file ->
  NoDup (iter_modules [parent file]) ->
  (forall s, s ∈ iter_modules [parent file] ->
     import_module (package +:+ "." +:+ s) = Ok (mods s)) ->
  list_hardware package
  = Ok (map (fun s => (s, names_where is_hardware (Utils.getmembers (mods s))))
            (iter_modules [parent file])).
Proof.
  intros Hpkg Hfile Hnd Himp. unfold Utils.list_hardware.
  rewrite Hpkg, Hfile.
  rewrite (scan_submodules_entries package mods); [done|done| |done].
  intros s _ Hin. by apply elem_of_nil in Hin.
Qed.


End Registry.

(** ** adc.py: the fake that replays files *)

Lemma comprehension_Forall2 {A B : Type} (f : A -> result B)
  (l : list A) (bs : list B) :
  Forall2 (fun a b => f a = Ok b) l bs -> comprehension f l = Ok bs.
Proof.
  induction 1 as [|a b l bs Hab _ IH]; cbn; [done|].
  by rewrite Hab, IH.
Qed.

Lemma map_convert (d : list ndarray) : map LoadingADC._convert d = d.
Proof. unfold LoadingADC._convert. apply map_id. Qed.

(** C4: once the paths are set and [trigger] has loaded them, [get_data]
    returns the arrays read from the files, one per path, unchanged and in
    the order of the paths. *)
Theorem LoadingADC_round_trip (np_load : string -> result ndarray)
  (self : LoadingADC.t) (kw : gmap string (list string))
  (ps : list string) (arrays : list ndarray) :
  kw !! "paths" = Some ps ->
  Forall2 (fun p a => np_load p = Ok a) ps arrays ->
  exists self',
    run (LoadingADC.dev np_load)
      [LoadingADC.SetAcquisitionParameters kw; LoadingADC.Trigger;
       LoadingADC.GetData] self
    = Ok ([VNone; VNone; VArrays arrays], self')
    /\ length arrays = length ps.
Proof.
  intros Hkw Hload. eexists. split.
  - cbn. unfold LoadingADC.set_acquisition_parameters. rewrite Hkw. cbn.
    unfold LoadingADC.trigger. cbn.
    rewrite (comprehension_Forall2 _ _ _ Hload). cbn.
    rewrite map_convert. reflexivity.
  - symmetry. by eapply Forall2_length.
Qed.

(** ** adc.py: the fake that draws random samples *)

Section FakeADCProperties.

Context {rng : Type}.
Variable gauss : rng -> spec_float * rng.

Lemma standard_normal_length (n : nat) (g : rng) :
  length (Numpy.standard_normal gauss n g).1 = n.
Proof.
  revert g. induction n as [|n IH]; intros g; cbn; [done|].
  destruct (gauss g) as [z g1]. specialize (IH g1).
  destruct (Numpy.standard_normal gauss n g1) as [zs g2]. cbn in *.
  by rewrite IH.
Qed.

Lemma standard_normal_finite (n : nat) (g : rng) :
  (forall g, Float64.is_finite (gauss g).1 = true) ->
  Forall (fun z => Float64.is_finite z = true) (Numpy.standard_normal gauss n g).1.
Proof.
  intros Hfin. revert g. induction n as [|n IH]; intros g; cbn; [constructor|].
  pose proof (Hfin g) as Hz. destruct (gauss g) as [z g1]. specialize (IH g1).
  destruct (Numpy.standard_normal gauss n g1) as [zs g2]. cbn in *.
  by constructor.
Qed.

(** With an accepted scale and a size that is not negative, [normal]
    returns [size] samples, each [loc + scale * z] for a drawn [z]. *)
Lemma normal_Ok (loc scale : spec_float) (size : Z) (g : rng) :
  negb (Float64.is_nan scale) && Float64.signbit scale = false ->
  0 <= size ->
  exists zs g',
    Numpy.standard_normal gauss (Z.to_nat size) g = (zs, g')
    /\ Numpy.normal gauss loc scale size g
       = Ok (map (fun z => Float64.add loc (Float64.mul scale z)) zs, g').
Proof.
  intros Hscale Hsize. unfold Numpy.normal. rewrite Hscale.
  destruct (Z.ltb_spec size 0) as [?|_]; [lia|].
  destruct (Numpy.standard_normal gauss (Z.to_nat size) g) as [zs g'].
  by exists zs, g'.
Qed.

(** A scale of zero turns every finite deviate into the sample [+0.0]. *)
Lemma zero_scale_sample (z : spec_float) :
  Float64.is_finite z = true ->
  Float64.add Float64.zero (Float64.mul (S754_zero false) z) = S754_zero false.
Proof. destruct z as [s|s| |s m e]; try done; by destruct s. Qed.

(** If the element expression succeeds from every generator state with a
    result in [P], the comprehension returns one such result per channel. *)
Lemma per_channel_Forall (P : ndarray -> Prop) (var : num) (self : FakeADC.t)
  (chans : list pyval) (g : rng) :
  (forall g, exists x g', FakeADC.one_channel gauss var self g = Ok (x, g') /\ P x) ->
  exists xs g',
    FakeADC.per_channel gauss var self chans g = Ok (xs, g')
    /\ length xs = length chans /\ Forall P xs.
Proof.
  intros Hone. revert g. induction chans as [|c chans IH]; intros g; cbn.
  - by exists [], g.
  - destruct (Hone g) as (x & g1 & -> & Hx). cbn.
    destruct (IH g1) as (xs & g2 & -> & Hlen & Hxs). cbn.
    exists (x :: xs), g2. repeat split; [by cbn; rewrite Hlen|by constructor].
Qed.

(** The element expression, when the instance is ready. *)
Lemma one_channel_Ok (var : num) (self : FakeADC.t) (a r : num)
  (scale : spec_float) (size : Z) (g : rng) :
  Numpy.sqrt var = Ok scale ->
  negb (Float64.is_nan scale) && Float64.signbit scale = false ->
  FakeADC.acquisition_time self = Some a ->
  FakeADC.target_rate self = Some r ->
  (p ← PyNum.mul a r; PyNum.int p) = Ok size ->
  0 <= size ->
  exists zs g',
    Numpy.standard_normal gauss (Z.to_nat size) g = (zs, g')
    /\ FakeADC.one_channel gauss var self g
       = Ok (map (fun z => Float64.add Float64.zero (Float64.mul scale z)) zs, g').
Proof.
  intros Hsqrt Hscale Ha Hr Hsize Hpos.
  destruct (normal_Ok Float64.zero scale size g Hscale Hpos) as (zs & g' & Hzs & Hn).
  exists zs, g'. split; [done|].
  unfold FakeADC.one_channel. rewrite Hsqrt, Ha, Hr. cbn.
  destruct (PyNum.mul a r) as [p|e]; cbn in Hsize |- *; [|done].
  rewrite Hsize. cbn. rewrite Hn. reflexivity.
Qed.

(** The default variance 1 and the variance 0 are accepted. *)
Lemma valid_var_default_and_zero :
  valid_var (default (PyInt 1) ((∅ : kwargs) !! "var"))
  /\ valid_var (default (PyInt 1) (({[ "var" := PyInt 0 ]} : kwargs) !! "var")).
Proof. split; eexists; split; reflexivity. Qed.

(** C3: a [FakeADC] with three channels, set to an acquisition time of 2.0
    and a target rate of 10.0, returns three arrays of 20 samples (for the
    default variance and for any variance numpy accepts); with [var=0]
    every sample is 0.0.  The deviates drawn from the generator are finite
    numbers. *)
Theorem FakeADC_get_data_3_channels (dev_id c1 c2 c3 : pyval)
  (args : list pyval) (kw0 : kwargs) :
  (forall g, Float64.is_finite (gauss g).1 = true) ->
  exists adc,
    FakeADC.set_acquisition_parameters
      {[ "acquisition_time" := PyFloat (Float64.of_Z 2);
         "target_rate" := PyFloat (Float64.of_Z 10) ]}
      (FakeADC.__init__ dev_id [c1; c2; c3] args kw0)
    = Ok (VNone, adc)
    /\ (forall kw g,
          valid_var (default (PyInt 1) (kw !! "var")) ->
          exists d g',
            FakeADC.get_data gauss kw adc g = Ok (d, g')
            /\ length d = 3%nat
            /\ Forall (fun x => length x = 20%nat) d)
    /\ (forall g, exists d g',
          FakeADC.get_data gauss {[ "var" := PyInt 0 ]} adc g = Ok (d, g')
          /\ length d = 3%nat
          /\ Forall (fun x => length x = 20%nat
                              /\ Forall (fun v => v = S754_zero false) x) d).
Proof.
  intros Hfin. eexists. split; [reflexivity|].
  split; [intros kw g (scale & Hsqrt & Hscale)|intros g];
    unfold FakeADC.get_data.
  - apply per_channel_Forall. intros g0.
    edestruct (one_channel_Ok (default (PyInt 1) (kw !! "var")))
      with (g := g0) (size := 20)
      as (zs & g' & Hzs & ->); [exact Hsqrt|exact Hscale|reflexivity..|done|].
    eexists _, g'. split; [reflexivity|].
    rewrite length_map.
    pose proof (standard_normal_length (Z.to_nat 20) g0) as Hlen.
    by rewrite Hzs in Hlen.
  - apply per_channel_Forall. intros g0.
    edestruct (one_channel_Ok (PyInt 0)) with (g := g0) (size := 20)
      as (zs & g' & Hzs & ->); try reflexivity; [done|].
    eexists _, g'. split; [reflexivity|]. split.
    + rewrite length_map.
      pose proof (standard_normal_length (Z.to_nat 20) g0) as Hlen.
      by rewrite Hzs in Hlen.
    + apply Forall_map.
      pose proof (standard_normal_finite (Z.to_nat 20) g0 Hfin) as Hz.
      rewrite Hzs in Hz. cbn in Hz.
      eapply Forall_impl; [exact Hz|].
      intros z Hzf. by apply zero_scale_sample.
Qed.

End FakeADCProperties.

(** ** Which operations of the fakes can raise *)

(** The fakes that have no attribute, or set all of them in [__init__]. *)
Lemma attribute_free_fakes_never_raise :
  Forall never_raises
    [FakeDAC.dev; FakeDACADC.dev; FakeLaser.dev; FakeModulatorBiasController.dev;
     FakePolarisationController.dev; FakePowerMeter.dev; FakeVoltMeter.dev;
     FakeAmpereMeter.dev; FakePowerSupply.dev; FakeSwitch.dev; FakeVOA.dev].
Proof.
  repeat constructor;
    auto using FakeDAC_never_raises, FakeDACADC_never_raises,
      FakeLaser_never_raises, FakeModulatorBiasController_never_raises,
      FakePolarisationController_never_raises, FakePowerMeter_never_raises,
      FakeVoltMeter_never_raises, FakeAmpereMeter_never_raises,
      FakePowerSupply_never_raises, FakeSwitch_never_raises,
      FakeVOA_never_raises.
Qed.

Lemma FakeADC_get_data_ready {rng : Type} (gauss : rng -> spec_float * rng)
  (kw : kwargs) (self : FakeADC.t) (g : rng) :
  FakeADC_ready self ->
  valid_var (default (PyInt 1) (kw !! "var")) ->
  succeeds (FakeADC.get_data gauss kw self g).
Proof.
  intros (a & r & Ha & Hr & size & Hsize & Hpos) (scale & Hsqrt & Hscale).
  unfold FakeADC.get_data.
  destruct (per_channel_Forall gauss (fun _ => True)
              (default (PyInt 1) (kw !! "var")) self (FakeADC.channels self) g)
    as (xs & g' & -> & _).
  - intros g0.
    destruct (one_channel_Ok gauss _ self a r scale size g0
                Hsqrt Hscale Ha Hr Hsize Hpos) as (zs & g1 & _ & ->).
    by eexists _, g1.
  - apply succeeds_Ok.
Qed.

Lemma FakeADC_set_acquisition_parameters_ready (kw : kwargs) (self : FakeADC.t) :
  valid_size (default (PyInt 0) (kw !! "acquisition_time"))
             (default (PyInt 0) (kw !! "target_rate")) ->
  exists self',
    FakeADC.set_acquisition_parameters kw self = Ok (VNone, self')
    /\ FakeADC_ready self'.
Proof.
  intros Hsize. eexists. split; [reflexivity|].
  eexists _, _. by repeat split.
Qed.



(** ** The properties on the concrete setting *)


Lemma need_modules_available_example :
  Utils.need_modules Example.find_spec Example.repr ["numpy"]
    Example.FakeADC_cls 5
  = (Example.FakeADC_cls, 5%positive)
  /\ forall args,
       Utils.construct
         (Utils.need_modules Example.find_spec Example.repr ["numpy"]
            Example.FakeADC_cls 5).1 args
       = Utils.construct Example.FakeADC_cls args.
Proof.
  apply (need_modules_available Example.find_spec Example.repr
           ["numpy"] Example.FakeADC_cls 5).
  intros m Hm. apply list_elem_of_singleton in Hm. subst m.
  exists tt. reflexivity.
Defined.

Lemma FakeADC_get_data_3_channels_example :
  exists adc,
    FakeADC.set_acquisition_parameters
      {[ "acquisition_time" := PyFloat (Float64.of_Z 2);
         "target_rate" := PyFloat (Float64.of_Z 10) ]}
      (FakeADC.__init__ (VStr "dev0") [VInt 0; VInt 1; VInt 2] [] ∅)
    = Ok (VNone, adc)
    /\ (forall kw g,
          valid_var (default (PyInt 1) (kw !! "var")) ->
          exists d g',
            FakeADC.get_data Example.gauss kw adc g = Ok (d, g')
            /\ length d = 3%nat
            /\ Forall (fun x => length x = 20%nat) d)
    /\ (forall g, exists d g',
          FakeADC.get_data Example.gauss {[ "var" := PyInt 0 ]} adc g = Ok (d, g')
          /\ length d = 3%nat
          /\ Forall (fun x => length x = 20%nat
                              /\ Forall (fun v => v = S754_zero false) x) d).
Proof.
  apply (FakeADC_get_data_3_channels Example.gauss
           (VStr "dev0") (VInt 0) (VInt 1) (VInt 2) [] ∅).
  intros g. destruct g; reflexivity.
Defined.

Lemma LoadingADC_round_trip_example :
  exists self',
    run (LoadingADC.dev Example.np_load)
      [LoadingADC.SetAcquisitionParameters
         {[ "paths" := ["ch0.npy"; "ch1.npy"] ]};
       LoadingADC.Trigger; LoadingADC.GetData]
      (LoadingADC.__init__ (VStr "dev0") [VInt 0; VInt 1] [] ∅)
    = Ok ([VNone; VNone; VArrays [Example.recorded0; Example.recorded1]], self')
    /\ length [Example.recorded0; Example.recorded1]
       = length ["ch0.npy"; "ch1.npy"].
Proof.
  apply (LoadingADC_round_trip Example.np_load
           (LoadingADC.__init__ (VStr "dev0") [VInt 0; VInt 1] [] ∅)
           {[ "paths" := ["ch0.npy"; "ch1.npy"] ]}
           ["ch0.npy"; "ch1.npy"] [Example.recorded0; Example.recorded1]).
  - reflexivity.
  - repeat constructor.
Defined.


Lemma list_hardware_package_not_found_example :
  Utils.list_hardware Example.QOSSTHardware Example.import_module
    Example.iter_modules Example.parent "nopkg" = Ok [].
Proof.
  apply (list_hardware_package_not_found Example.QOSSTHardware
           Example.import_module Example.iter_modules Example.parent
           "nopkg" "nopkg").
  reflexivity.
Defined.

(** * Further properties *)

(** ** need_modules: when the class is replaced, and what the replacement is *)

Section NeedModulesMore.

Context {Args Inst ModuleSpec : Type}.
Variable find_spec : string -> option ModuleSpec.
Variable repr : string -> string.

Local Abbreviation pyclass := (@Utils.pyclass Args Inst).
Local Abbreviation need_modules := (Utils.need_modules find_spec repr).

Lemma all_found_false_inv (modules : list string) :
  Utils.all_found find_spec modules = false ->
  exists m, m ∈ modules /\ find_spec m = None.
Proof.
  unfold Utils.all_found. rewrite all_found_from. cbn.
  induction modules as [|m modules IH]; cbn; [done|].
  destruct (find_spec m) as [sp|] eqn:E.
  - rewrite bool_decide_eq_true_2 by by eexists. cbn. intros H.
    destruct (IH H) as (m' & Hm' & Hnone).
    exists m'. split; [by apply list_elem_of_further|done].
  - intros _. exists m. split; [apply list_elem_of_here|done].
Qed.

Lemma issubclass_refl (C : pyclass) : Utils.issubclass C C = true.
Proof. unfold Utils.issubclass, Utils.class_eqb. by rewrite Pos.eqb_refl. Qed.

Lemma issubclass_replacement (modules : list string) (C B : pyclass) (id : positive) :
  Utils.issubclass C B = true ->
  Utils.issubclass (Utils.ReplacementClass repr modules C id) B = true.
Proof.
  unfold Utils.issubclass, Utils.class_eqb. cbn. intros H.
  apply orb_true_iff in H as [H|H].
  - apply Pos.eqb_eq in H. rewrite <- H, Pos.eqb_refl. cbn. apply orb_true_r.
  - rewrite H. by rewrite !orb_true_r.
Qed.

Lemma occurs_in_message_name (name : string) (modules : list string) :
  occurs_in name (Utils.message repr name modules).
Proof. unfold Utils.message. auto with occurs. Qed.

(** X1: the decorated class comes back unchanged, and no class object is
    created, exactly when every required module is found. *)
Theorem need_modules_identity_iff (modules : list string) (C : pyclass)
  (next : positive) :
  need_modules modules C next = (C, next)
  <-> forall m, m ∈ modules -> is_Some (find_spec m).
Proof.
  rewrite <- all_found_true.
  unfold Utils.need_modules, Utils.decorator.
  destruct (Utils.all_found find_spec modules); cbn; split; try done.
  intros [= _ H]. symmetry in H. by apply Pos.succ_discr in H.
Qed.



(** X4: a hardware class stays a hardware class for [list_hardware] after
    it went through the guard, whether its modules are installed or not
    (the new class object is not [QOSSTHardware]). *)
Theorem guarded_class_is_still_hardware (QOSSTHardware : pyclass)
  (modules : list string) (C : pyclass) (next : positive) :
  Utils.is_hardware QOSSTHardware (Utils.PyClass C) = true ->
  Utils.cls_id QOSSTHardware <> next ->
  Utils.is_hardware QOSSTHardware
    (Utils.PyClass (need_modules modules C next).1) = true.
Proof.
  intros HC Hid.
  unfold Utils.need_modules, Utils.decorator.
  destruct (Utils.all_found find_spec modules); cbn [negb fst]; [done|].
  cbn in HC |- *. apply andb_true_iff in HC as [Hsub _].
  rewrite (issubclass_replacement modules C QOSSTHardware next Hsub).
  unfold Utils.class_eqb. cbn.
  destruct (Pos.eqb_spec next (Utils.cls_id QOSSTHardware)); [congruence|done].
Qed.

End NeedModulesMore.

(** ** list_hardware: what is listed, and which failures get through *)

Lemma names_where_elem_of {O : Type} (p : O -> bool) (ms : list (string * O))
  (name : string) :
  name ∈ names_where p ms <-> exists o, (name, o) ∈ ms /\ p o = true.
Proof.
  unfold names_where. rewrite list_elem_of_In, in_map_iff. split.
  - intros ([n o] & Hn & Hin). cbn in Hn. subst n.
    apply filter_In in Hin as [Hin Hp]. exists o.
    split; [by apply list_elem_of_In|done].
  - intros (o & Hin & Hp). exists (name, o). split; [done|].
    apply filter_In. split; [by apply list_elem_of_In|done].
Qed.

Section RegistryMore.

Context {Args Inst : Type}.
Variable QOSSTHardware : @Utils.pyclass Args Inst.
Variable import_module : string -> result (@Utils.pymodule Args Inst).
Variable iter_modules : list string -> list string.
Variable parent : string -> string.

Local Abbreviation is_hardware := (Utils.is_hardware QOSSTHardware).
Local Abbreviation scan_submodules :=
  (Utils.scan_submodules QOSSTHardware import_module).
Local Abbreviation list_hardware :=
  (Utils.list_hardware QOSSTHardware import_module iter_modules parent).
Local Abbreviation list_hardware_str :=
  (Utils.list_hardware_str QOSSTHardware import_module iter_modules parent).

(** The outer loop stops at the first submodule whose import raises. *)
Lemma scan_submodules_raises (package : string) (before after : list string)
  (bad : string) (e : exn) (d : Dict.t (list string)) :
  (forall s, s ∈ before -> succeeds (import_module (package +:+ "." +:+ s))) ->
  import_module (package +:+ "." +:+ bad) = Raise e ->
  scan_submodules package (before ++ bad :: after)%list d = Raise e.
Proof.
  intros Hbefore Hbad. revert d.
  induction before as [|s before IH]; intros d; cbn.
  - by rewrite Hbad.
  - destruct (Hbefore s) as [m ->]; [apply list_elem_of_here|]. cbn.
    apply IH. intros s' Hs'. by apply Hbefore, list_elem_of_further.
Qed.

(** X5: for a package that can be inspected, the dictionary has exactly
    one entry per submodule, in the order [pkgutil.iter_modules] yields
    them, and the entry of a submodule holds the names of those of its
    members that are classes deriving from [QOSSTHardware], that class
    excepted, and no other name. *)
Theorem list_hardware_lists_exactly_the_hardware (package file : string)
  (loaded : Utils.pymodule) (mods : string -> Utils.pymodule) :
  import_module package = Ok loaded ->
  Utils.__file__ loaded = Some file ->
  NoDup (iter_modules [parent file]) ->
  (forall s, s ∈ iter_modules [parent file] ->
     import_module (package +:+ "." +:+ s) = Ok (mods s)) ->
  exists res,
    list_hardware package = Ok res
    /\ map fst res = iter_modules [parent file]
    /\ forall s, s ∈ iter_modules [parent file] ->
       exists names,
         Dict.get s res = Some names
         /\ forall name,
              name ∈ names
              <-> exists obj,
                    (name, obj) ∈ Utils.getmembers (mods s)
                    /\ is_hardware obj = true.
Proof.
  intros Hpkg Hfile Hnd Himp.
  eexists. split.
  { exact (list_hardware_inspectable QOSSTHardware import_module iter_modules
             parent package file loaded mods Hpkg Hfile Hnd Himp). }
  split.
  - rewrite map_map. cbn. apply map_id.
  - intros s Hs. eexists. split.
    + by apply (Dict_get_entries
                  (fun s => names_where is_hardware (Utils.getmembers (mods s)))).
    + intros name. apply names_where_elem_of.
Qed.

(** X6: only the import of the package itself is guarded.  When the import
    of a submodule raises, whatever the exception ([ModuleNotFoundError]
    included), [list_hardware] raises it and nothing is returned. *)
Theorem list_hardware_submodule_import_raises (package file : string)
  (loaded : Utils.pymodule) (before after : list string) (bad : string)
  (e : exn) :
  import_module package = Ok loaded ->
  Utils.__file__ loaded = Some file ->
  iter_modules [parent file] = (before ++ bad :: after)%list ->
  (forall s, s ∈ before -> succeeds (import_module (package +:+ "." +:+ s))) ->
  import_module (package +:+ "." +:+ bad) = Raise e ->
  list_hardware package = Raise e
  /\ list_hardware_str package = Raise e.
Proof.
  intros Hpkg Hfile Hsubs Hbefore Hbad.
  assert (list_hardware package = Raise e) as E.
  { unfold Utils.list_hardware. rewrite Hpkg, Hfile, Hsubs.
    by apply scan_submodules_raises. }
  split; [done|]. unfold Utils.list_hardware_str. by rewrite E.
Qed.


(** X8: for a package that is not found, the text is the header alone. *)
Theorem list_hardware_str_package_not_found (package name : string) :
  import_module package = Raise (ModuleNotFoundError name) ->
  list_hardware_str package
  = Ok ("Hardware of package " +:+ package +:+ Utils.newline +:+ Utils.newline).
Proof.
  intros H. unfold Utils.list_hardware_str, Utils.list_hardware.
  rewrite H. reflexivity.
Qed.

End RegistryMore.

(** ** FakeADC.get_data: shape, samples and errors *)

Section FakeADCMore.

Context {rng : Type}.
Variable gauss : rng -> spec_float * rng.

Lemma standard_normal_app (n m : nat) (g : rng) :
  Numpy.standard_normal gauss (n + m) g
  = let '(zs1, g1) := Numpy.standard_normal gauss n g in
    let '(zs2, g2) := Numpy.standard_normal gauss m g1 in
    ((zs1 ++ zs2)%list, g2).
Proof.
  revert g. induction n as [|n IH]; intros g; cbn.
  - by destruct (Numpy.standard_normal gauss m g).
  - destruct (gauss g) as [z g1]. rewrite IH.
    destruct (Numpy.standard_normal gauss n g1) as [zs1 g2].
    by destruct (Numpy.standard_normal gauss m g2).
Qed.

(** The arrays of the channels are cut, in order, from one run of draws. *)
Lemma per_channel_consecutive (var : num) (self : FakeADC.t) (a r : num)
  (scale : spec_float) (size : Z) (chans : list pyval) (g : rng) :
  Numpy.sqrt var = Ok scale ->
  negb (Float64.is_nan scale) && Float64.signbit scale = false ->
  FakeADC.acquisition_time self = Some a ->
  FakeADC.target_rate self = Some r ->
  (p ← PyNum.mul a r; PyNum.int p) = Ok size ->
  0 <= size ->
  exists d,
    FakeADC.per_channel gauss var self chans g
    = Ok (d, (Numpy.standard_normal gauss (length chans * Z.to_nat size) g).2)
    /\ concat d
       = map (fun z => Float64.add Float64.zero (Float64.mul scale z))
           (Numpy.standard_normal gauss (length chans * Z.to_nat size) g).1
    /\ length d = length chans
    /\ Forall (fun x => length x = Z.to_nat size) d.
Proof.
  intros Hsqrt Hscale Ha Hr Hsize Hpos. revert g.
  induction chans as [|c chans IH]; intros g.
  - exists []. by repeat split.
  - destruct (one_channel_Ok gauss var self a r scale size g
                Hsqrt Hscale Ha Hr Hsize Hpos) as (zs & g1 & Hzs & Hone).
    destruct (IH g1) as (d & Hd & Hcat & Hlen & Hall).
    exists (map (fun z => Float64.add Float64.zero (Float64.mul scale z)) zs :: d).
    cbn [FakeADC.per_channel length Nat.mul]. rewrite Hone. cbn. rewrite Hd. cbn.
    rewrite standard_normal_app, Hzs.
    destruct (Numpy.standard_normal gauss (length chans * Z.to_nat size) g1)
      as [zs' g2]. cbn in *.
    repeat split.
    + by rewrite Hcat, map_app.
    + by rewrite Hlen.
    + constructor; [|done]. rewrite length_map.
      pose proof (standard_normal_length gauss (Z.to_nat size) g) as Hl.
      by rewrite Hzs in Hl.
Qed.



(** X11: before the parameters are set, [get_data] raises [AttributeError]
    as soon as there is a channel, and returns the empty list, without
    drawing anything, when there is none. *)
Theorem FakeADC_get_data_parameters_unset (kw : kwargs) (self : FakeADC.t)
  (scale : spec_float) (g : rng) :
  Numpy.sqrt (default (PyInt 1) (kw !! "var")) = Ok scale ->
  FakeADC.acquisition_time self = None ->
  (FakeADC.channels self = [] ->
     FakeADC.get_data gauss kw self g = Ok ([], g))
  /\ (FakeADC.channels self <> [] ->
     FakeADC.get_data gauss kw self g = Raise (AttributeError "acquisition_time")).
Proof.
  intros Hsqrt Ha. unfold FakeADC.get_data. split; intros Hc.
  - by rewrite Hc.
  - destruct (FakeADC.channels self) as [|c chans]; [done|].
    cbn. unfold FakeADC.one_channel. by rewrite Hsqrt, Ha.
Qed.



End FakeADCMore.

(** ** LoadingADC: what is replayed, and when loading fails *)

Lemma comprehension_raises {A B : Type} (f : A -> result B)
  (before after : list A) (bad : A) (e : exn) :
  Forall (fun a => succeeds (f a)) before ->
  f bad = Raise e ->
  comprehension f (before ++ bad :: after)%list = Raise e.
Proof.
  intros Hbefore Hbad. induction Hbefore as [|a before [b Hb] _ IH]; cbn.
  - by rewrite Hbad.
  - by rewrite Hb, IH.
Qed.

(** X14: the data is the one of the last [trigger]: setting other paths
    afterwards changes what the next [trigger] loads, not what [get_data]
    returns. *)
Theorem LoadingADC_replays_last_trigger (np_load : string -> result ndarray)
  (self : LoadingADC.t) (kw1 kw2 : gmap string (list string))
  (ps : list string) (arrays : list ndarray) :
  kw1 !! "paths" = Some ps ->
  Forall2 (fun p a => np_load p = Ok a) ps arrays ->
  exists self',
    run (LoadingADC.dev np_load)
      [LoadingADC.SetAcquisitionParameters kw1; LoadingADC.Trigger;
       LoadingADC.SetAcquisitionParameters kw2; LoadingADC.GetData] self
    = Ok ([VNone; VNone; VNone; VArrays arrays], self')
    /\ LoadingADC.paths self' = Some (default [] (kw2 !! "paths"))
    /\ LoadingADC.data self' = Some arrays.
Proof.
  intros Hkw Hload. eexists. split.
  - cbn. unfold LoadingADC.set_acquisition_parameters. rewrite Hkw. cbn.
    unfold LoadingADC.trigger. cbn.
    rewrite (comprehension_Forall2 _ _ _ Hload). cbn.
    rewrite map_convert. reflexivity.
  - by split.
Qed.

(** X15: [trigger] raises the exception of the first path that fails to
    load; the paths after it are not tried. *)
Theorem LoadingADC_trigger_first_failure (np_load : string -> result ndarray)
  (self : LoadingADC.t) (before after : list string) (bad : string) (e : exn) :
  LoadingADC.paths self = Some (before ++ bad :: after)%list ->
  Forall (fun p => succeeds (np_load p)) before ->
  np_load bad = Raise e ->
  LoadingADC.trigger np_load self = Raise e.
Proof.
  intros Hps Hbefore Hbad. unfold LoadingADC.trigger. rewrite Hps. cbn.
  by rewrite (comprehension_raises np_load before after bad e).
Qed.

(** X16: parameters set without the key [paths] give an empty list of
    paths: [trigger] then loads nothing and [get_data] returns no array,
    whatever the channels of the instance. *)
Theorem LoadingADC_default_paths (np_load : string -> result ndarray)
  (self : LoadingADC.t) (kw : gmap string (list string)) :
  kw !! "paths" = None ->
  exists self',
    run (LoadingADC.dev np_load)
      [LoadingADC.SetAcquisitionParameters kw; LoadingADC.Trigger;
       LoadingADC.GetData] self
    = Ok ([VNone; VNone; VArrays []], self')
    /\ LoadingADC.channels self' = LoadingADC.channels self.
Proof.
  intros Hkw. eexists. split.
  - cbn. unfold LoadingADC.set_acquisition_parameters. rewrite Hkw. reflexivity.
  - reflexivity.
Qed.

(** X17: between two triggers the data does not change: a script without
    [trigger], run on an instance that holds data, succeeds, every value it
    returns is [None] or that same data, and the data is still there at the
    end. *)
Theorem LoadingADC_data_kept_until_trigger (np_load : string -> result ndarray)
  (ops : list LoadingADC.op) (self : LoadingADC.t) (d : list ndarray) :
  Forall not_trigger ops ->
  LoadingADC.data self = Some d ->
  exists vs self',
    run (LoadingADC.dev np_load) ops self = Ok (vs, self')
    /\ LoadingADC.data self' = Some d
    /\ Forall (fun v => v = VNone \/ v = VArrays d) vs.
Proof.
  intros Hops. revert self.
  induction Hops as [|o ops Ho _ IH]; intros self Hd.
  - exists [], self. by repeat split.
  - assert (exists v self1,
              LoadingADC.call np_load o self = Ok (v, self1)
              /\ LoadingADC.data self1 = Some d
              /\ (v = VNone \/ v = VArrays d)) as (v & self1 & Hcall & Hd1 & Hv).
    { destruct o; try done; cbn;
        try (by eexists _, _; repeat split; eauto).
      unfold LoadingADC.get_data. rewrite Hd. cbn. rewrite map_convert.
      eexists _, _. repeat split; eauto. }
    destruct (IH self1 Hd1) as (vs & self' & Hrun & Hd' & Hvs).
    exists (v :: vs), self'. cbn [run dev_call LoadingADC.dev].
    change (dev_call (LoadingADC.dev np_load) o self)
      with (LoadingADC.call np_load o self).
    rewrite Hcall. cbn. rewrite Hrun. cbn.
    repeat split; [done|by constructor].
Qed.

(** ** The other fakes: what is kept and what is not *)

(** X18: a [FakeVOA] keeps the value of the last [set_value] through
    [open] and [close]; every call returns [None]. *)
Theorem FakeVOA_keeps_last_value (ops : list FakeVOA.op) (self : FakeVOA.t) :
  exists vs self',
    run FakeVOA.dev ops self = Ok (vs, self')
    /\ FakeVOA.value self' = last_value ops (FakeVOA.value self)
    /\ Forall (fun v => v = VNone) vs.
Proof.
  revert self. induction ops as [|o ops IH]; intros self.
  - exists [], self. by repeat split.
  - destruct o; cbn;
      match goal with
      | |- context [run FakeVOA.dev ops ?s] =>
          destruct (IH s) as (vs & self' & -> & Hv & Hvs)
      end; cbn; eexists _, _; (split; [reflexivity|]);
      (split; [exact Hv|by constructor]).
Qed.

(** X19: after any script a [FakeDAC] has the emission flag of the last
    [start_emission] or [stop_emission] and the data of the last
    [load_data]; [open], [close] and [set_emission_parameters] change
    neither, and every call returns [None]. *)
Theorem FakeDAC_state_after_script (ops : list FakeDAC.op) (self : FakeDAC.t) :
  exists vs self',
    run FakeDAC.dev ops self = Ok (vs, self')
    /\ FakeDAC.emission self' = last_emission ops (FakeDAC.emission self)
    /\ FakeDAC.data self' = last_data ops (FakeDAC.data self)
    /\ Forall (fun v => v = VNone) vs.
Proof.
  revert self. induction ops as [|o ops IH]; intros self.
  - exists [], self. by repeat split.
  - destruct o; cbn;
      match goal with
      | |- context [run FakeDAC.dev ops ?s] =>
          destruct (IH s) as (vs & self' & -> & He & Hd & Hvs)
      end; cbn; eexists _, _; (split; [reflexivity|]);
      (split; [exact He|]); (split; [exact Hd|by constructor]).
Qed.

(** X20: the fake polarisation controller does not track a position:
    after any script of calls ([move_by], [move_to] and [home] included),
    [get_position] returns 0.0 for each of the three channels. *)
Theorem FakePolarisationController_position_is_zero
  (channel : PolarisationControllerChannel) :
  reads_constant FakePolarisationController.dev
    (FakePolarisationController.GetPosition channel) (VFloat (S754_zero false)).
Proof.
  apply never_raises_reads_constant;
    [apply FakePolarisationController_never_raises|done].
Qed.

(** X21: the fake DAC/ADC pair does not loop the loaded data back: after
    any script of calls ([load_dac_data] and [start] included),
    [get_adc_data] returns the empty list. *)
Theorem FakeDACADC_returns_no_data :
  reads_constant FakeDACADC.dev FakeDACADC.GetAdcData (VArrays []).
Proof.
  apply never_raises_reads_constant;
    [apply FakeDACADC_never_raises|done].
Qed.

(** ** The further properties on the concrete setting *)



Lemma guarded_class_is_still_hardware_example :
  Utils.is_hardware Example.QOSSTHardware
    (Utils.PyClass
       (Utils.need_modules Example.find_spec Example.repr ["zhinst"]
          Example.FakeADC_cls 5).1) = true.
Proof.
  apply (guarded_class_is_still_hardware Example.find_spec Example.repr
           Example.QOSSTHardware ["zhinst"] Example.FakeADC_cls 5).
  - reflexivity.
  - discriminate.
Defined.

Lemma list_hardware_lists_exactly_the_hardware_example :
  exists res,
    Utils.list_hardware Example.QOSSTHardware Example.import_module
      Example.iter_modules Example.parent "lab" = Ok res
    /\ map fst res = Example.iter_modules [Example.parent "/site/lab/__init__.py"]
    /\ forall s, s ∈ Example.iter_modules [Example.parent "/site/lab/__init__.py"] ->
       exists names,
         Dict.get s res = Some names
         /\ forall name,
              name ∈ names
              <-> exists obj,
                    (name, obj) ∈ Utils.getmembers (Example.mods s)
                    /\ Utils.is_hardware Example.QOSSTHardware obj = true.
Proof.
  apply (list_hardware_lists_exactly_the_hardware Example.QOSSTHardware
           Example.import_module Example.iter_modules Example.parent
           "lab" "/site/lab/__init__.py" Example.lab Example.mods).
  - reflexivity.
  - reflexivity.
  - apply NoDup_cons. split.
    + intros H. apply list_elem_of_singleton in H. discriminate H.
    + apply NoDup_singleton.
  - intros s Hs. apply elem_of_cons in Hs. destruct Hs as [Hs|Hs].
    + subst s. reflexivity.
    + apply list_elem_of_singleton in Hs. subst s. reflexivity.
Defined.

Lemma list_hardware_submodule_import_raises_example :
  Utils.list_hardware Example.QOSSTHardware Example.import_broken
    Example.iter_modules Example.parent "lab"
  = Raise (ExternalError "SyntaxError")
  /\ Utils.list_hardware_str Example.QOSSTHardware Example.import_broken
       Example.iter_modules Example.parent "lab"
     = Raise (ExternalError "SyntaxError").
Proof.
  apply (list_hardware_submodule_import_raises Example.QOSSTHardware
           Example.import_broken Example.iter_modules Example.parent
           "lab" "/site/lab/__init__.py" Example.lab ["adc"] [] "utils"
           (ExternalError "SyntaxError")).
  - reflexivity.
  - reflexivity.
  - reflexivity.
  - intros s Hs. apply list_elem_of_singleton in Hs. subst s.
    exists Example.lab_adc. reflexivity.
  - reflexivity.
Defined.


Lemma list_hardware_str_package_not_found_example :
  Utils.list_hardware_str Example.QOSSTHardware Example.import_module
    Example.iter_modules Example.parent "nopkg"
  = Ok ("Hardware of package " +:+ "nopkg" +:+ Utils.newline +:+ Utils.newline).
Proof.
  apply (list_hardware_str_package_not_found Example.QOSSTHardware
           Example.import_module Example.iter_modules Example.parent
           "nopkg" "nopkg").
  reflexivity.
Defined.



Lemma FakeADC_get_data_parameters_unset_example :
  (FakeADC.channels (FakeADC.__init__ (VStr "dev0") [VInt 0] [] ∅) = [] ->
     FakeADC.get_data Example.gauss ∅
       (FakeADC.__init__ (VStr "dev0") [VInt 0] [] ∅) true = Ok ([], true))
  /\ (FakeADC.channels (FakeADC.__init__ (VStr "dev0") [VInt 0] [] ∅) <> [] ->
     FakeADC.get_data Example.gauss ∅
       (FakeADC.__init__ (VStr "dev0") [VInt 0] [] ∅) true
     = Raise (AttributeError "acquisition_time")).
Proof.
  apply (FakeADC_get_data_parameters_unset Example.gauss ∅
           (FakeADC.__init__ (VStr "dev0") [VInt 0] [] ∅) (Float64.of_Z 1) true).
  - reflexivity.
  - reflexivity.
Defined.



Lemma LoadingADC_replays_last_trigger_example :
  exists self',
    run (LoadingADC.dev Example.np_load)
      [LoadingADC.SetAcquisitionParameters
         {[ "paths" := ["ch0.npy"; "ch1.npy"] ]};
       LoadingADC.Trigger;
       LoadingADC.SetAcquisitionParameters {[ "paths" := ["missing.npy"] ]};
       LoadingADC.GetData]
      (LoadingADC.__init__ (VStr "dev0") [VInt 0; VInt 1] [] ∅)
    = Ok ([VNone; VNone; VNone;
           VArrays [Example.recorded0; Example.recorded1]], self')
    /\ LoadingADC.paths self'
       = Some (default []
                 (({[ "paths" := ["missing.npy"] ]} : gmap string (list string))
                    !! "paths"))
    /\ LoadingADC.data self' = Some [Example.recorded0; Example.recorded1].
Proof.
  apply (LoadingADC_replays_last_trigger Example.np_load
           (LoadingADC.__init__ (VStr "dev0") [VInt 0; VInt 1] [] ∅)
           {[ "paths" := ["ch0.npy"; "ch1.npy"] ]}
           {[ "paths" := ["missing.npy"] ]}
           ["ch0.npy"; "ch1.npy"] [Example.recorded0; Example.recorded1]).
  - reflexivity.
  - repeat constructor.
Defined.

Lemma LoadingADC_trigger_first_failure_example :
  LoadingADC.trigger Example.np_load
    (LoadingADC.mk [VInt 0] (Some ["ch0.npy"; "missing.npy"; "ch1.npy"]) None)
  = Raise (ExternalError "FileNotFoundError").
Proof.
  apply (LoadingADC_trigger_first_failure Example.np_load
           (LoadingADC.mk [VInt 0] (Some ["ch0.npy"; "missing.npy"; "ch1.npy"]) None)
           ["ch0.npy"] ["ch1.npy"] "missing.npy"
           (ExternalError "FileNotFoundError")).
  - reflexivity.
  - constructor; [|constructor]. exists Example.recorded0. reflexivity.
  - reflexivity.
Defined.

Lemma LoadingADC_default_paths_example :
  exists self',
    run (LoadingADC.dev Example.np_load)
      [LoadingADC.SetAcquisitionParameters ∅; LoadingADC.Trigger;
       LoadingADC.GetData]
      (LoadingADC.__init__ (VStr "dev0") [VInt 0; VInt 1] [] ∅)
    = Ok ([VNone; VNone; VArrays []], self')
    /\ LoadingADC.channels self'
       = LoadingADC.channels
           (LoadingADC.__init__ (VStr "dev0") [VInt 0; VInt 1] [] ∅).
Proof.
  apply (LoadingADC_default_paths Example.np_load
           (LoadingADC.__init__ (VStr "dev0") [VInt 0; VInt 1] [] ∅) ∅).
  reflexivity.
Defined.

Lemma LoadingADC_data_kept_until_trigger_example :
  exists vs self',
    run (LoadingADC.dev Example.np_load)
      [LoadingADC.GetData; LoadingADC.Close;
       LoadingADC.SetAcquisitionParameters ∅; LoadingADC.GetData]
      Example.loading_loaded
    = Ok (vs, self')
    /\ LoadingADC.data self' = Some [Example.recorded0]
    /\ Forall (fun v => v = VNone \/ v = VArrays [Example.recorded0]) vs.
Proof.
  apply (LoadingADC_data_kept_until_trigger Example.np_load
           [LoadingADC.GetData; LoadingADC.Close;
            LoadingADC.SetAcquisitionParameters ∅; LoadingADC.GetData]
           Example.loading_loaded [Example.recorded0]).
  - repeat constructor.
  - reflexivity.
Defined.
